(** * NoteWebAPP: the note store, its access guard, and the two gateways

    A shallow embedding of [main.py] (FastAPI endpoints and Telegram bot
    handlers over one SQLite table [notes]) together with the properties
    the specification states about it.

    Modelling conventions.
    - Python [str] is [string] (the UTF-8 bytes of the text); Python [int]
      and SQLite INTEGER are [Z]; [Optional[T]] is [option T].
    - An instant is a number of seconds ([Z]).  SQLite's CURRENT_TIMESTAMP
      has one-second resolution and renders as 'YYYY-MM-DD HH:MM:SS', whose
      text order is the chronological order; only that order is used.
    - The table is the list of its rows in rowid order, which is the order
      in which a full scan visits them.
    - The handlers run in a state-and-exception monad over a [World] that
      holds the database file, the open connection's uncommitted changes,
      a journal of every call made to the database, the wall clock, the
      random source and the messages sent by the bot.
    - Every sqlite3 call succeeds: engine faults (I/O errors, a locked or
      full database, the 64-bit bound on INTEGER) are outside the model. *)

From Stdlib Require Import ZArith List String Ascii Bool Lia.
From Stdlib Require Import Sorted Permutation DecimalString.
Import ListNotations.

Local Open Scope string_scope.
Local Open Scope list_scope.
Local Open Scope Z_scope.

(** ** Data model *)

(** [class NoteCreate(BaseModel)]. *)
Module NoteCreate.
Record t : Type := Build {
  question : string;
  telegram_user_id : option Z;
  telegram_username : option string
}.
End NoteCreate.

(** A row of table [notes]; [class NoteResponse(BaseModel)] carries the same
    six columns, and [dict(row)] is the row itself. *)
Module Note.
Record t : Type := Build {
  id : Z;
  question : string;
  created_at : Z;
  color : string;
  telegram_user_id : option Z;
  telegram_username : option string
}.
End Note.

(** [class PasswordCheck(BaseModel)]. *)
Module PasswordCheck.
Record t : Type := Build { password : string }.
End PasswordCheck.

(** The part of [telegram.User] that [handle_message] reads. *)
Module User.
Record t : Type := Build {
  id : Z;
  username : option string;
  first_name : string
}.
End User.

(** The part of [telegram.Update] that the handlers read:
    [update.effective_user] and [update.message.text]. *)
Module Update.
Record t : Type := Build {
  effective_user : User.t;
  message_text : string
}.
End Update.

(** ** Python helpers *)

(** The line feed written [\n] in the source. *)
Definition LF : string := String "010"%char EmptyString.

(** [str(n)] for an [int]. *)
Definition str (n : Z) : string := NilZero.string_of_int (Z.to_int n).

(** [a or b] on an optional string: [None] and the empty string are falsy. *)
Definition or_else (a : option string) (b : string) : string :=
  match a with
  | Some s => if String.eqb s "" then b else s
  | None => b
  end.

(** [password == SECRET] for [password: str = None]. *)
Definition opt_eqb (candidate : option string) (secret : string) : bool :=
  match candidate with
  | Some s => String.eqb s secret
  | None => false
  end.

(** ** Exceptions and outcomes *)

Inductive Exception : Type :=
| HTTPException (status_code : Z) (detail : string)
| TypeError (msg : string).

(** [str(e)]. *)
Definition str_exc (e : Exception) : string :=
  match e with
  | HTTPException c d => (str c ++ ": " ++ d)%string
  | TypeError m => m
  end.

Inductive Outcome (A : Type) : Type :=
| Return (a : A)
| Raise (e : Exception).
Arguments Return {A} a.
Arguments Raise {A} e.

(** ** The database engine as the sqlite3 calls of the program see it *)

(** The content of [notes.db]: table [notes] and the AUTOINCREMENT counter
    that SQLite keeps in [sqlite_sequence]. *)
Record Database : Type := mkDatabase {
  notes : list Note.t;
  sqlite_sequence : Z
}.

(** The statements the program executes, one constructor per SQL text. *)
Inductive Statement : Type :=
| SELECT_notes_ORDER_BY_created_at_DESC
| INSERT_INTO_notes (question color : string)
    (telegram_user_id : option Z) (telegram_username : option string)
| SELECT_notes_WHERE_id (note_id : Z)
| DELETE_FROM_notes_WHERE_id (note_id : Z)
| SELECT_COUNT
| SELECT_COUNT_DISTINCT_telegram_user_id
| SELECT_created_at_ORDER_BY_created_at_DESC_LIMIT_1.

(** One entry per call made to the database. *)
Inductive Event : Type :=
| Connect
| Execute (sql : Statement)
| Commit
| Close.

Record World : Type := mkWorld {
  disk : Database;              (* committed content of notes.db *)
  pending : option Database;    (* the open connection's uncommitted view *)
  journal : list Event;         (* database calls, most recent first *)
  clock : Z;                    (* the wall clock *)
  entropy : nat -> nat;         (* the random source *)
  draws : nat;                  (* how many random numbers were drawn *)
  outbox : list string          (* bot replies, most recent first *)
}.

Definition M (A : Type) : Type := World -> Outcome A * World.

Definition ret {A} (a : A) : M A := fun w => (Return a, w).

Definition raise {A} (e : Exception) : M A := fun w => (Raise e, w).

Definition bind {A B} (c : M A) (k : A -> M B) : M B :=
  fun w =>
    match c w with
    | (Return a, w') => k a w'
    | (Raise e, w') => (Raise e, w')
    end.

(** [try: body / except ... as e: handler e]. *)
Definition try_except {A} (body : M A) (handler : Exception -> M A) : M A :=
  fun w =>
    match body w with
    | (Return a, w') => (Return a, w')
    | (Raise e, w') => handler e w'
    end.

Declare Scope py_scope.
Delimit Scope py_scope with py.
Notation "x <- c ;; k" := (bind c (fun x => k))
  (at level 61, c at next level, right associativity) : py_scope.
Notation "c ;; k" := (bind c (fun _ => k))
  (at level 61, right associativity) : py_scope.
Local Open Scope py_scope.

(** *** World updates *)

Definition log (ev : Event) (w : World) : World :=
  mkWorld (disk w) (pending w) (ev :: journal w) (clock w)
          (entropy w) (draws w) (outbox w).

Definition set_pending (p : option Database) (w : World) : World :=
  mkWorld (disk w) p (journal w) (clock w) (entropy w) (draws w) (outbox w).

Definition set_disk (d : Database) (w : World) : World :=
  mkWorld d (pending w) (journal w) (clock w) (entropy w) (draws w) (outbox w).

Definition set_clock (now : Z) (w : World) : World :=
  mkWorld (disk w) (pending w) (journal w) now (entropy w) (draws w) (outbox w).

(** What the open connection reads: its own uncommitted changes if any,
    the file otherwise. *)
Definition view (w : World) : Database :=
  match pending w with
  | Some d => d
  | None => disk w
  end.

(** *** Relational operations on the table *)

(** [WHERE id = ?]. *)
Definition where_id (note_id : Z) (rows : list Note.t) : list Note.t :=
  filter (fun n => Note.id n =? note_id) rows.

(** The rows that [DELETE ... WHERE id = ?] leaves. *)
Definition where_id_not (note_id : Z) (rows : list Note.t) : list Note.t :=
  filter (fun n => negb (Note.id n =? note_id)) rows.

(** [ORDER BY created_at DESC]: the sorter places a row after every row
    with a larger or equal key that the scan visited before it, so rows
    with equal keys stay in scan order. *)
Fixpoint insert_desc (n : Note.t) (sorted : list Note.t) : list Note.t :=
  match sorted with
  | [] => [n]
  | m :: rest =>
      if Note.created_at n <? Note.created_at m
      then m :: insert_desc n rest
      else n :: m :: rest
  end.

Definition order_by_created_at_desc (rows : list Note.t) : list Note.t :=
  fold_right insert_desc [] rows.

(** The largest rowid in the table (0 when it is empty). *)
Definition max_rowid (rows : list Note.t) : Z :=
  fold_right (fun n acc => Z.max (Note.id n) acc) 0 rows.

(** AUTOINCREMENT: one more than the largest rowid the table has ever held. *)
Definition next_rowid (d : Database) : Z :=
  Z.max (max_rowid (notes d)) (sqlite_sequence d) + 1.

(** [COUNT(DISTINCT telegram_user_id) ... WHERE telegram_user_id IS NOT NULL]. *)
Fixpoint non_null_user_ids (rows : list Note.t) : list Z :=
  match rows with
  | [] => []
  | n :: rest =>
      match Note.telegram_user_id n with
      | Some u => u :: non_null_user_ids rest
      | None => non_null_user_ids rest
      end
  end.

Definition count_distinct_user_ids (rows : list Note.t) : Z :=
  Z.of_nat (List.length (nodup Z.eq_dec (non_null_user_ids rows))).

(** The table after an INSERT that names neither [id] nor [created_at]:
    the row gets the next rowid and the current instant, and the counter
    remembers the rowid. *)
Definition insert_row (question color : string)
  (telegram_user_id : option Z) (telegram_username : option string)
  (now : Z) (d : Database) : Database :=
  mkDatabase
    (notes d ++
     [Note.Build (next_rowid d) question now color
                 telegram_user_id telegram_username])
    (next_rowid d).

(** The table after [DELETE ... WHERE id = ?]; the counter is kept. *)
Definition delete_row (note_id : Z) (d : Database) : Database :=
  mkDatabase (where_id_not note_id (notes d)) (sqlite_sequence d).

(** [CREATE TABLE IF NOT EXISTS notes (...)] on a file that may not hold
    the table yet. *)
Definition CREATE_TABLE_IF_NOT_EXISTS (file : option Database) : Database :=
  match file with
  | Some d => d
  | None => mkDatabase [] 0
  end.

(** *** The sqlite3 calls *)

(** [get_db()], that is [sqlite3.connect(DB_NAME)]: a new connection reads
    the file and has no uncommitted change. *)
Definition get_db : M unit :=
  fun w => (Return tt, log Connect (set_pending None w)).

(** [SELECT id, question, created_at, color, telegram_user_id,
    telegram_username FROM notes ORDER BY created_at DESC], then
    [fetchall()]. *)
Definition execute_select_notes : M (list Note.t) :=
  fun w =>
    (Return (order_by_created_at_desc (notes (view w))),
     log (Execute SELECT_notes_ORDER_BY_created_at_DESC) w).

(** [INSERT INTO notes (question, color, telegram_user_id,
    telegram_username) VALUES (?, ?, ?, ?)], then [cursor.lastrowid]:
    [id] is assigned by AUTOINCREMENT and [created_at] defaults to
    CURRENT_TIMESTAMP. *)
Definition execute_insert (question color : string)
  (telegram_user_id : option Z) (telegram_username : option string) : M Z :=
  fun w =>
    let d := view w in
    (Return (next_rowid d),
     log (Execute (INSERT_INTO_notes question color
                     telegram_user_id telegram_username))
       (set_pending
          (Some (insert_row question color telegram_user_id
                            telegram_username (clock w) d)) w)).

(** [SELECT * FROM notes WHERE id = ?], then [fetchone()]. *)
Definition execute_select_by_id (note_id : Z) : M (option Note.t) :=
  fun w =>
    (Return (hd_error (where_id note_id (notes (view w)))),
     log (Execute (SELECT_notes_WHERE_id note_id)) w).

(** [DELETE FROM notes WHERE id = ?]. *)
Definition execute_delete (note_id : Z) : M unit :=
  fun w =>
    (Return tt,
     log (Execute (DELETE_FROM_notes_WHERE_id note_id))
       (set_pending (Some (delete_row note_id (view w))) w)).

(** [SELECT COUNT( * ) as total FROM notes], then [fetchone()['total']]. *)
Definition execute_count : M Z :=
  fun w =>
    (Return (Z.of_nat (List.length (notes (view w)))),
     log (Execute SELECT_COUNT) w).

(** [SELECT COUNT(DISTINCT telegram_user_id) as users FROM notes
    WHERE telegram_user_id IS NOT NULL], then [fetchone()['users']]. *)
Definition execute_count_users : M Z :=
  fun w =>
    (Return (count_distinct_user_ids (notes (view w))),
     log (Execute SELECT_COUNT_DISTINCT_telegram_user_id) w).

(** [SELECT created_at FROM notes ORDER BY created_at DESC LIMIT 1], then
    [fetchone()]. *)
Definition execute_select_last : M (option Z) :=
  fun w =>
    (Return (option_map Note.created_at
               (hd_error (order_by_created_at_desc (notes (view w))))),
     log (Execute SELECT_created_at_ORDER_BY_created_at_DESC_LIMIT_1) w).

(** [conn.commit()]: the connection's changes reach the file. *)
Definition commit : M unit :=
  fun w => (Return tt, log Commit (set_pending None (set_disk (view w) w))).

(** [conn.close()]: changes that were not committed are dropped. *)
Definition close : M unit :=
  fun w => (Return tt, log Close (set_pending None w)).

(** [init_db()] at start-up, on a file that may be new. *)
Definition init_db (file : option Database) : Database :=
  CREATE_TABLE_IF_NOT_EXISTS file.

(** *** The other effects *)

(** [random.choice(seq)] for a non-empty [seq]. *)
Definition random_choice (seq : list string) : M string :=
  fun w =>
    (Return (nth (entropy w (draws w) mod List.length seq)%nat seq ""),
     mkWorld (disk w) (pending w) (journal w) (clock w)
             (entropy w) (S (draws w)) (outbox w)).

(** [datetime.now()]. *)
Definition datetime_now : M Z := fun w => (Return (clock w), w).

(** [await update.message.reply_text(text)]. *)
Definition reply_text (text : string) : M unit :=
  fun w =>
    (Return tt,
     mkWorld (disk w) (pending w) (journal w) (clock w)
             (entropy w) (draws w) (text :: outbox w)).

(** [dict(row)] for the result of [fetchone()]. *)
Definition dict (row : option Note.t) : M Note.t :=
  match row with
  | Some n => ret n
  | None => raise (TypeError "'NoneType' object is not iterable")
  end.

(** ** The program *)

Definition colors : list string :=
  ["color-yellow"; "color-pink"; "color-cyan"; "color-orange";
   "color-blue"; "color-green"; "color-lavender"; "color-peach"].

Definition get_random_color : M string := random_choice colors.

(** The payloads of the endpoints that do not return notes. *)
Module Authorized.
Record t : Type := Build { authorized : bool; message : string }.
End Authorized.

Module Deleted.
Record t : Type := Build { message : string; id : Z }.
End Deleted.

Module Stats.
Record t : Type := Build {
  total_notes : Z;
  total_users : Z;
  last_note : option Z;
  timestamp : Z
}.
End Stats.

(** [except Exception as e: raise HTTPException(status_code=500,
    detail=str(e))]. *)
Definition internal_error {A} (e : Exception) : M A :=
  raise (HTTPException 500 (str_exc e)).

(** [os.getenv("SECRET_PASSWORD", "12345")]. *)
Definition getenv_SECRET_PASSWORD (environment : option string) : string :=
  match environment with
  | Some value => value
  | None => "12345"
  end.

Section Program.


(** [SECRET_PASSWORD = os.getenv("SECRET_PASSWORD", "12345")], read once at
    start-up. *)
Variable SECRET_PASSWORD : string.

(** [t.strftime('%Y-%m-%d %H:%M:%S')] for an instant [t]. *)
Variable strftime : Z -> string.

(** [POST /api/check-password]. *)
Definition check_password (data : PasswordCheck.t) : M Authorized.t :=
  if String.eqb (PasswordCheck.password data) SECRET_PASSWORD
  then ret (Authorized.Build true "Parol to'g'ri")
  else raise (HTTPException 401 "Parol noto'g'ri").

(** [GET /api/notes]. *)
Definition get_notes (password : option string) : M (list Note.t) :=
  if negb (opt_eqb password SECRET_PASSWORD)
  then raise (HTTPException 401 "Parol talab qilinadi yoki noto'g'ri")
  else
    try_except
      (get_db ;;
       notes <- execute_select_notes ;;
       close ;;
       ret notes)
      internal_error.

(** [POST /api/notes]. *)
Definition create_note (note : NoteCreate.t) : M Note.t :=
  try_except
    (get_db ;;
     color <- get_random_color ;;
     note_id <- execute_insert (NoteCreate.question note) color
                  (NoteCreate.telegram_user_id note)
                  (NoteCreate.telegram_username note) ;;
     commit ;;
     new_note <- execute_select_by_id note_id ;;
     close ;;
     dict new_note)
    internal_error.

(** [DELETE /api/notes/{note_id}]. *)
Definition delete_note (note_id : Z) (password : option string)
  : M Deleted.t :=
  if negb (opt_eqb password SECRET_PASSWORD)
  then raise (HTTPException 401 "Parol talab qilinadi yoki noto'g'ri")
  else
    try_except
      (get_db ;;
       note <- execute_select_by_id note_id ;;
       match note with
       | None => raise (HTTPException 404 "Savol topilmadi")
       | Some _ =>
           execute_delete note_id ;;
           commit ;;
           close ;;
           ret (Deleted.Build "Savol o'chirildi" note_id)
       end)
      (fun e =>
         match e with
         | HTTPException _ _ => raise e
         | _ => internal_error e
         end).

(** [GET /api/stats]. *)
Definition get_stats (password : option string) : M Stats.t :=
  if negb (opt_eqb password SECRET_PASSWORD)
  then raise (HTTPException 401 "Parol talab qilinadi yoki noto'g'ri")
  else
    try_except
      (get_db ;;
       total <- execute_count ;;
       users <- execute_count_users ;;
       last <- execute_select_last ;;
       close ;;
       now <- datetime_now ;;
       ret (Stats.Build total users last now))
      internal_error.

(** The bot's [/stats] command. *)
Definition stats_command (update : Update.t) : M unit :=
  try_except
    (get_db ;;
     total <- execute_count ;;
     users <- execute_count_users ;;
     close ;;
     now <- datetime_now ;;
     reply_text
       ("📊 Statistika:" ++ LF ++ LF ++
        "📝 Jami savollar: " ++ str total ++ LF ++
        "👥 Foydalanuvchilar: " ++ str users ++ LF ++
        "⏰ Vaqt: " ++ strftime now)%string)
    (fun e => reply_text "❌ Statistika olishda xatolik").

(** The bot's handler for text that is not a command
    ([MessageHandler(filters.TEXT & ~filters.COMMAND, handle_message)]). *)
Definition handle_message (update : Update.t) : M unit :=
  let user := Update.effective_user update in
  let question := Update.message_text update in
  try_except
    (get_db ;;
     color <- get_random_color ;;
     note_id <- execute_insert question color
                  (Some (User.id user))
                  (Some (or_else (User.username user)
                                 (User.first_name user))) ;;
     commit ;;
     close ;;
     reply_text
       ("✅ Savolingiz saqlandi! (ID: " ++ str note_id ++ ")" ++ LF ++
        "🌐 Web sahifada ko'rishingiz mumkin.")%string)
    (fun e =>
       reply_text
         ("❌ Saqlashda xatolik yuz berdi." ++ LF ++
          "Iltimos, qaytadan urinib ko'ring.")%string).


(** ** The server: requests handled one after another *)

(** What reaches the process: an HTTP request, a bot update, or the wall
    clock moving to a new reading. *)
Inductive Request : Type :=
| POST_check_password (data : PasswordCheck.t)
| GET_notes (password : option string)
| POST_notes (note : NoteCreate.t)
| DELETE_notes (note_id : Z) (password : option string)
| GET_stats (password : option string)
| BOT_stats (update : Update.t)
| BOT_text (update : Update.t)
| TIME (now : Z).

(** The world after one request has been handled. *)
Definition serve (r : Request) (w : World) : World :=
  match r with
  | POST_check_password data => snd (check_password data w)
  | GET_notes password => snd (get_notes password w)
  | POST_notes note => snd (create_note note w)
  | DELETE_notes note_id password => snd (delete_note note_id password w)
  | GET_stats password => snd (get_stats password w)
  | BOT_stats update => snd (stats_command update w)
  | BOT_text update => snd (handle_message update w)
  | TIME now => set_clock now w
  end.

Definition run (rs : list Request) (w : World) : World :=
  fold_left (fun w r => serve r w) rs w.

(** The world when start-up ([init_db()] in [lifespan]) is over. *)
Definition boot (file : option Database) (now : Z) (rnd : nat -> nat)
  : World :=
  mkWorld (init_db file) None [] now rnd 0%nat [].

(** What PRIMARY KEY AUTOINCREMENT maintains: rowids are unique and none
    exceeds the counter. *)
Definition consistent (d : Database) : Prop :=
  NoDup (map Note.id (notes d)) /\
  Forall (fun n => Note.id n <= sqlite_sequence d) (notes d).


End Program.

(** ** The rest of the program: the fixed bot replies, the status
    endpoints and the start-up and shutdown of the process *)












Module Root.
Record t : Type := Build {
  message : string;
  status : string;
  telegram_bot : string
}.
End Root.

Module Health.
Record t : Type := Build {
  status : string;
  timestamp : Z;
  telegram_bot : string
}.
End Health.




(** ** Vocabulary of the properties *)

(** Rows listed most recent first. *)
Definition descending (rows : list Note.t) : Prop :=
  StronglySorted (fun a b => Note.created_at b <= Note.created_at a) rows.



(** The color that the next call of [get_random_color] returns. *)
Definition next_color (w : World) : string :=
  nth (entropy w (draws w) mod List.length colors)%nat colors "".

(** The row that an INSERT made now would add. *)
Definition next_row (question : string) (telegram_user_id : option Z)
  (telegram_username : option string) (w : World) : Note.t :=
  Note.Build (next_rowid (disk w)) question (clock w) (next_color w)
             telegram_user_id telegram_username.



(** ** Concrete runs *)

(** A new store at instant 1000, with a random source that counts up. *)
Definition new_store : World := boot None 1000 (fun k => k).

Definition alice : Update.t :=
  Update.Build (User.Build 42 (Some "alice") "Alice") "Hello".

Definition bob : Update.t :=
  Update.Build (User.Build 7 None "Bob") "Salom".

(** One web note, then one bot note: ids 1 and 2. *)
Definition two_notes : World :=
  run "12345" str
    [POST_notes (NoteCreate.Build "first" None None); BOT_text alice]
    new_store.

(** ** Facts about the relational operations *)

Lemma insert_desc_perm (n : Note.t) (l : list Note.t) :
  Permutation (insert_desc n l) (n :: l).
Proof.
  induction l as [|m l IH]; cbn [insert_desc].
  - apply Permutation_refl.
  - destruct (Note.created_at n <? Note.created_at m).
    + eapply perm_trans; [apply perm_skip, IH | apply perm_swap].
    + apply Permutation_refl.
Qed.

Lemma order_by_perm (rows : list Note.t) :
  Permutation (order_by_created_at_desc rows) rows.
Proof.
  induction rows as [|n rows IH]; cbn [order_by_created_at_desc fold_right].
  - apply perm_nil.
  - eapply perm_trans; [apply insert_desc_perm | apply perm_skip, IH].
Qed.

Lemma insert_desc_descending (n : Note.t) (l : list Note.t) :
  descending l -> descending (insert_desc n l).
Proof.
  unfold descending.
  induction l as [|m l IH]; intro Hs; cbn [insert_desc].
  - constructor; constructor.
  - inversion Hs as [|? ? Hl Hm]; subst.
    destruct (Z.ltb_spec (Note.created_at n) (Note.created_at m)) as [Hlt|Hge].
    + constructor; [apply IH, Hl|].
      eapply Permutation_Forall;
        [apply Permutation_sym, insert_desc_perm|].
      constructor; [lia | exact Hm].
    + constructor; [exact Hs|].
      constructor; [exact Hge|].
      eapply Forall_impl; [|exact Hm].
      cbn beta; intros a Ha; lia.
Qed.

Lemma order_by_descending (rows : list Note.t) :
  descending (order_by_created_at_desc rows).
Proof.
  induction rows as [|n rows IH]; cbn [order_by_created_at_desc fold_right].
  - constructor.
  - apply insert_desc_descending, IH.
Qed.





Lemma max_rowid_bound (rows : list Note.t) :
  Forall (fun n => Note.id n <= max_rowid rows) rows.
Proof.
  induction rows as [|n rows IH]; cbn [max_rowid fold_right]; constructor.
  - apply Z.le_max_l.
  - eapply Forall_impl; [|exact IH].
    cbn beta; intros a Ha. fold (max_rowid rows). lia.
Qed.

(** The next rowid is above the counter and above every row of the table. *)
Lemma next_rowid_fresh (d : Database) :
  sqlite_sequence d < next_rowid d /\
  Forall (fun n => Note.id n < next_rowid d) (notes d).
Proof.
  unfold next_rowid; split; [lia|].
  eapply Forall_impl; [|apply max_rowid_bound].
  cbn beta; intros a Ha; lia.
Qed.

Lemma where_id_absent (k : Z) (rows : list Note.t) :
  ~ In k (map Note.id rows) -> where_id k rows = [].
Proof.
  unfold where_id.
  induction rows as [|n rows IH]; cbn [filter map In]; intro H; [reflexivity|].
  destruct (Z.eqb_spec (Note.id n) k) as [E|E]; [tauto|].
  apply IH; tauto.
Qed.

Lemma where_id_present (k : Z) (rows : list Note.t) :
  In k (map Note.id rows) ->
  exists n, hd_error (where_id k rows) = Some n /\ In n rows /\ Note.id n = k.
Proof.
  unfold where_id.
  induction rows as [|n rows IH]; cbn [filter map In]; intro H; [tauto|].
  destruct (Z.eqb_spec (Note.id n) k) as [E|E].
  - exists n; cbn; auto.
  - destruct H as [H|H]; [tauto|].
    destruct (IH H) as (m & H1 & H2 & H3). exists m; auto.
Qed.

Lemma where_id_new_row (d : Database) (row : Note.t) :
  Note.id row = next_rowid d ->
  where_id (next_rowid d) (notes d ++ [row]) = [row].
Proof.
  intro E. unfold where_id. rewrite filter_app.
  fold (where_id (next_rowid d) (notes d)).
  rewrite where_id_absent.
  - cbn [filter app]. rewrite E, Z.eqb_refl. reflexivity.
  - intro H. apply in_map_iff in H. destruct H as (n & Hn & Hin).
    destruct (next_rowid_fresh d) as [_ F].
    rewrite Forall_forall in F. specialize (F n Hin). lia.
Qed.

Lemma in_where_id_not (k : Z) (rows : list Note.t) (n : Note.t) :
  In n (where_id_not k rows) <-> In n rows /\ Note.id n <> k.
Proof.
  unfold where_id_not. rewrite filter_In.
  destruct (Z.eqb_spec (Note.id n) k); cbn; intuition congruence.
Qed.

Lemma where_id_not_absent (k : Z) (rows : list Note.t) :
  ~ In k (map Note.id rows) -> where_id_not k rows = rows.
Proof.
  unfold where_id_not.
  induction rows as [|n rows IH]; cbn [filter map In]; intro H; [reflexivity|].
  destruct (Z.eqb_spec (Note.id n) k) as [E|E]; [tauto|].
  cbn [negb]. f_equal. apply IH; tauto.
Qed.

(** With unique rowids, deleting a rowid that is present removes one row. *)
Lemma where_id_not_length (k : Z) (rows : list Note.t) :
  NoDup (map Note.id rows) -> In k (map Note.id rows) ->
  S (List.length (where_id_not k rows)) = List.length rows.
Proof.
  induction rows as [|n rows IH]; cbn [map In]; intros Hnd Hin; [tauto|].
  inversion Hnd as [|? ? Hn Hrest]; subst.
  unfold where_id_not in *. cbn [filter].
  destruct (Z.eqb_spec (Note.id n) k) as [E|E]; cbn [negb List.length].
  - subst k. fold (where_id_not (Note.id n) rows).
    rewrite where_id_not_absent by exact Hn. reflexivity.
  - f_equal. apply IH; [exact Hrest|]. destruct Hin; [tauto|assumption].
Qed.

Lemma insert_row_consistent (q c : string) (u : option Z)
  (name : option string) (now : Z) (d : Database) :
  consistent d -> consistent (insert_row q c u name now d).
Proof.
  intros [Hnd Hle]. destruct (next_rowid_fresh d) as [Hseq Hfresh].
  unfold consistent, insert_row; cbn [notes sqlite_sequence]. split.
  - rewrite map_app. cbn [map Note.id].
    apply NoDup_app; [exact Hnd | repeat constructor; intros [] |].
    intros k Hk [E|[]]. subst k.
    apply in_map_iff in Hk. destruct Hk as (n & E & Hn).
    rewrite Forall_forall in Hfresh. specialize (Hfresh n Hn). lia.
  - apply Forall_app. split.
    + eapply Forall_impl; [|exact Hfresh]. cbn beta; intros; lia.
    + repeat constructor. cbn [Note.id]. lia.
Qed.

(** Deleting by id keeps the rowids unique. *)
Lemma where_id_not_unique (k : Z) (rows : list Note.t) :
  NoDup (map Note.id rows) -> NoDup (map Note.id (where_id_not k rows)).
Proof.
  intro Hnd. induction rows as [|n rows IH]; [constructor|].
  cbn [map] in Hnd. inversion Hnd as [|? ? Hn Hrest]; subst.
  unfold where_id_not in *. cbn [filter].
  destruct (negb (Note.id n =? k)); [|exact (IH Hrest)].
  cbn [map]. constructor; [|exact (IH Hrest)].
  intro Hin. apply Hn.
  apply in_map_iff in Hin. destruct Hin as (m & E & Hm).
  apply filter_In in Hm. apply in_map_iff. exists m. tauto.
Qed.

Lemma delete_row_consistent (k : Z) (d : Database) :
  consistent d -> consistent (delete_row k d).
Proof.
  intros [Hnd Hle].
  unfold consistent, delete_row; cbn [notes sqlite_sequence].
  split.
  - apply where_id_not_unique, Hnd.
  - rewrite Forall_forall in *. intros n Hn.
    apply in_where_id_not in Hn. apply Hle, Hn.
Qed.

Lemma where_id_not_split (k : Z) (rows : list Note.t) :
  NoDup (map Note.id rows) -> In k (map Note.id rows) ->
  exists before gone after,
    rows = before ++ gone :: after /\ Note.id gone = k /\
    where_id_not k rows = before ++ after.
Proof.
  induction rows as [|n rows IH]; cbn [map In]; intros Hnd Hin; [tauto|].
  inversion Hnd as [|? ? Hn Hrest]; subst.
  destruct (Z.eq_dec (Note.id n) k) as [E|E].
  - exists [], n, rows. repeat split; [exact E|].
    unfold where_id_not; cbn [filter app].
    rewrite (proj2 (Z.eqb_eq _ _) E). cbn [negb].
    apply where_id_not_absent. rewrite <- E. exact Hn.
  - destruct Hin as [Hin|Hin]; [tauto|].
    destruct (IH Hrest Hin) as (l1 & g & l2 & Er & Eg & Ew).
    exists (n :: l1), g, l2. repeat split; [now rewrite Er | exact Eg |].
    unfold where_id_not in *; cbn [filter app].
    rewrite (proj2 (Z.eqb_neq _ _) E). cbn [negb]. now rewrite Ew.
Qed.


Lemma non_null_user_ids_In (u : Z) (rows : list Note.t) :
  In u (non_null_user_ids rows) <->
  exists n, In n rows /\ Note.telegram_user_id n = Some u.
Proof.
  induction rows as [|n rows IH]; cbn [non_null_user_ids In].
  - split; [tauto | intros (n & [] & _)].
  - destruct (Note.telegram_user_id n) as [v|] eqn:E; cbn [In];
      rewrite IH; split.
    + intros [->|(m & Hm & Em)]; eauto.
    + intros (m & [->|Hm] & Em); [left; congruence | eauto].
    + intros (m & Hm & Em); eauto.
    + intros (m & [->|Hm] & Em); [congruence | eauto].
Qed.

(** ** What each handler computes *)

Section Properties.

Set Default Proof Using "Type".

Variable SECRET_PASSWORD : string.
Variable strftime : Z -> string.

Local Abbreviation get_notes := (get_notes SECRET_PASSWORD).
Local Abbreviation delete_note := (delete_note SECRET_PASSWORD).
Local Abbreviation get_stats := (get_stats SECRET_PASSWORD).
Local Abbreviation stats_command := (stats_command strftime).
Local Abbreviation serve := (serve SECRET_PASSWORD strftime).
Local Abbreviation run := (run SECRET_PASSWORD strftime).

Ltac step_handler :=
  cbv [try_except bind ret raise internal_error dict
       get_db execute_select_notes execute_insert execute_select_by_id
       execute_delete execute_count execute_count_users execute_select_last
       commit close get_random_color random_choice datetime_now reply_text];
  cbn [log set_pending set_disk view disk pending journal clock entropy
       draws outbox fst snd].

Lemma next_color_in_colors (w : World) : In (next_color w) colors.
Proof.
  unfold next_color. apply nth_In.
  apply Nat.mod_upper_bound. discriminate.
Qed.

Lemma create_note_eq (note : NoteCreate.t) (w : World) :
  create_note note w =
  (Return (next_row (NoteCreate.question note)
             (NoteCreate.telegram_user_id note)
             (NoteCreate.telegram_username note) w),
   mkWorld
     (insert_row (NoteCreate.question note) (next_color w)
        (NoteCreate.telegram_user_id note)
        (NoteCreate.telegram_username note) (clock w) (disk w))
     None
     (Close :: Execute (SELECT_notes_WHERE_id (next_rowid (disk w)))
        :: Commit
        :: Execute (INSERT_INTO_notes (NoteCreate.question note)
                      (next_color w) (NoteCreate.telegram_user_id note)
                      (NoteCreate.telegram_username note))
        :: Connect :: journal w)
     (clock w) (entropy w) (S (draws w)) (outbox w)).
Proof.
  unfold create_note. step_handler.
  fold (next_color w). cbn [insert_row notes].
  rewrite where_id_new_row by reflexivity.
  reflexivity.
Qed.

Lemma handle_message_eq (update : Update.t) (w : World) :
  let user := Update.effective_user update in
  let name := or_else (User.username user) (User.first_name user) in
  let text := Update.message_text update in
  handle_message update w =
  (Return tt,
   mkWorld
     (insert_row text (next_color w) (Some (User.id user)) (Some name)
        (clock w) (disk w))
     None
     (Close :: Commit
        :: Execute (INSERT_INTO_notes text (next_color w)
                      (Some (User.id user)) (Some name))
        :: Connect :: journal w)
     (clock w) (entropy w) (S (draws w))
     (("✅ Savolingiz saqlandi! (ID: " ++ str (next_rowid (disk w)) ++ ")"
         ++ LF ++ "🌐 Web sahifada ko'rishingiz mumkin.")%string
        :: outbox w)).
Proof.
  unfold handle_message. step_handler. reflexivity.
Qed.

Lemma get_notes_eq (w : World) :
  get_notes (Some SECRET_PASSWORD) w =
  (Return (order_by_created_at_desc (notes (disk w))),
   mkWorld (disk w) None
     (Close :: Execute SELECT_notes_ORDER_BY_created_at_DESC
        :: Connect :: journal w)
     (clock w) (entropy w) (draws w) (outbox w)).
Proof.
  unfold get_notes, opt_eqb. rewrite String.eqb_refl. cbn [negb].
  step_handler. reflexivity.
Qed.

Lemma get_stats_eq (w : World) :
  get_stats (Some SECRET_PASSWORD) w =
  (Return
     (Stats.Build
        (Z.of_nat (List.length (notes (disk w))))
        (count_distinct_user_ids (notes (disk w)))
        (option_map Note.created_at
           (hd_error (order_by_created_at_desc (notes (disk w)))))
        (clock w)),
   mkWorld (disk w) None
     (Close :: Execute SELECT_created_at_ORDER_BY_created_at_DESC_LIMIT_1
        :: Execute SELECT_COUNT_DISTINCT_telegram_user_id
        :: Execute SELECT_COUNT :: Connect :: journal w)
     (clock w) (entropy w) (draws w) (outbox w)).
Proof.
  unfold get_stats, opt_eqb. rewrite String.eqb_refl. cbn [negb].
  step_handler. reflexivity.
Qed.

Lemma stats_command_eq (update : Update.t) (w : World) :
  stats_command update w =
  (Return tt,
   mkWorld (disk w) None
     (Close :: Execute SELECT_COUNT_DISTINCT_telegram_user_id
        :: Execute SELECT_COUNT :: Connect :: journal w)
     (clock w) (entropy w) (draws w)
     (("📊 Statistika:" ++ LF ++ LF ++
       "📝 Jami savollar: "
         ++ str (Z.of_nat (List.length (notes (disk w)))) ++ LF ++
       "👥 Foydalanuvchilar: "
         ++ str (count_distinct_user_ids (notes (disk w))) ++ LF ++
       "⏰ Vaqt: " ++ strftime (clock w))%string
        :: outbox w)).
Proof.
  unfold stats_command. step_handler. reflexivity.
Qed.

Lemma delete_note_missing (note_id : Z) (w : World) :
  ~ In note_id (map Note.id (notes (disk w))) ->
  delete_note note_id (Some SECRET_PASSWORD) w =
  (Raise (HTTPException 404 "Savol topilmadi"),
   mkWorld (disk w) None
     (Execute (SELECT_notes_WHERE_id note_id) :: Connect :: journal w)
     (clock w) (entropy w) (draws w) (outbox w)).
Proof.
  intro H. unfold delete_note, opt_eqb.
  rewrite String.eqb_refl. cbn [negb].
  step_handler. rewrite where_id_absent by exact H. reflexivity.
Qed.

Lemma delete_note_present (note_id : Z) (w : World) :
  In note_id (map Note.id (notes (disk w))) ->
  delete_note note_id (Some SECRET_PASSWORD) w =
  (Return (Deleted.Build "Savol o'chirildi" note_id),
   mkWorld (delete_row note_id (disk w)) None
     (Close :: Commit :: Execute (DELETE_FROM_notes_WHERE_id note_id)
        :: Execute (SELECT_notes_WHERE_id note_id) :: Connect :: journal w)
     (clock w) (entropy w) (draws w) (outbox w)).
Proof.
  intro H. unfold delete_note, opt_eqb.
  rewrite String.eqb_refl. cbn [negb].
  step_handler.
  destruct (where_id_present _ _ H) as (n & Hn & _). rewrite Hn.
  reflexivity.
Qed.

Lemma opt_eqb_false (password : option string) :
  password <> Some SECRET_PASSWORD -> opt_eqb password SECRET_PASSWORD = false.
Proof.
  intro H. destruct password as [s|]; cbn [opt_eqb]; [|reflexivity].
  destruct (String.eqb_spec s SECRET_PASSWORD); [congruence | reflexivity].
Qed.

Lemma opt_eqb_true (password : option string) :
  opt_eqb password SECRET_PASSWORD = true <-> password = Some SECRET_PASSWORD.
Proof.
  destruct password as [s|]; cbn [opt_eqb].
  - destruct (String.eqb_spec s SECRET_PASSWORD); split; congruence.
  - split; discriminate.
Qed.

Lemma get_notes_denied (password : option string) (w : World) :
  password <> Some SECRET_PASSWORD ->
  get_notes password w =
  (Raise (HTTPException 401 "Parol talab qilinadi yoki noto'g'ri"), w).
Proof.
  intro H. unfold get_notes. rewrite (opt_eqb_false _ H). reflexivity.
Qed.

Lemma delete_note_denied (note_id : Z) (password : option string)
  (w : World) :
  password <> Some SECRET_PASSWORD ->
  delete_note note_id password w =
  (Raise (HTTPException 401 "Parol talab qilinadi yoki noto'g'ri"), w).
Proof.
  intro H. unfold delete_note. rewrite (opt_eqb_false _ H). reflexivity.
Qed.

Lemma get_stats_denied (password : option string) (w : World) :
  password <> Some SECRET_PASSWORD ->
  get_stats password w =
  (Raise (HTTPException 401 "Parol talab qilinadi yoki noto'g'ri"), w).
Proof.
  intro H. unfold get_stats. rewrite (opt_eqb_false _ H). reflexivity.
Qed.

Lemma password_dec (password : option string) :
  {password = Some SECRET_PASSWORD} + {password <> Some SECRET_PASSWORD}.
Proof.
  destruct password as [s|]; [|right; discriminate].
  destruct (string_dec s SECRET_PASSWORD) as [E|E];
    [left; congruence | right; congruence].
Qed.

(** ** The store along a run of requests *)

(** A request leaves the file as it is, adds one row, or deletes by id. *)
Lemma serve_disk (r : Request) (w : World) :
  disk (serve r w) = disk w \/
  (exists q c u name, disk (serve r w) = insert_row q c u name (clock w) (disk w)) \/
  (exists k, disk (serve r w) = delete_row k (disk w)).
Proof.
  destruct r as [data|pw|note|k pw|pw|upd|upd|now]; cbn [serve].
  - left. unfold check_password.
    destruct (String.eqb _ _); reflexivity.
  - left. destruct (password_dec pw) as [->|H].
    + rewrite get_notes_eq. reflexivity.
    + rewrite get_notes_denied by exact H. reflexivity.
  - right; left. rewrite create_note_eq. cbn [snd disk]. eauto.
  - destruct (password_dec pw) as [->|H].
    + destruct (in_dec Z.eq_dec k (map Note.id (notes (disk w)))) as [I|I].
      * right; right. rewrite delete_note_present by exact I.
        cbn [snd disk]. eauto.
      * left. rewrite delete_note_missing by exact I. reflexivity.
    + left. rewrite delete_note_denied by exact H. reflexivity.
  - left. destruct (password_dec pw) as [->|H].
    + rewrite get_stats_eq. reflexivity.
    + rewrite get_stats_denied by exact H. reflexivity.
  - left. rewrite stats_command_eq. reflexivity.
  - right; left. rewrite handle_message_eq. cbn [snd disk]. eauto.
  - left. reflexivity.
Qed.

Lemma serve_consistent (r : Request) (w : World) :
  consistent (disk w) -> consistent (disk (serve r w)).
Proof.
  intro H.
  destruct (serve_disk r w) as [E|[(q & c & u & name & E)|(k & E)]];
    rewrite E.
  - exact H.
  - apply insert_row_consistent, H.
  - apply delete_row_consistent, H.
Qed.

(** The AUTOINCREMENT counter never goes down. *)
Lemma serve_sequence (r : Request) (w : World) :
  sqlite_sequence (disk w) <= sqlite_sequence (disk (serve r w)).
Proof.
  destruct (serve_disk r w) as [E|[(q & c & u & name & E)|(k & E)]];
    rewrite E.
  - lia.
  - cbn [insert_row sqlite_sequence].
    destruct (next_rowid_fresh (disk w)). lia.
  - cbn [delete_row sqlite_sequence]. lia.
Qed.


Lemma run_app (rs1 rs2 : list Request) (w : World) :
  run (rs1 ++ rs2) w = run rs2 (run rs1 w).
Proof. unfold run. apply fold_left_app. Qed.

Lemma run_consistent (rs : list Request) (w : World) :
  consistent (disk w) -> consistent (disk (run rs w)).
Proof.
  revert w. induction rs as [|r rs IH]; intros w H; [exact H|].
  cbn [run fold_left]. apply IH, serve_consistent, H.
Qed.




(** Every call made to the database leaves an entry in the journal, so a
    world whose journal did not grow was not consulted. *)
Lemma database_calls_are_journalled (w : World) :
  journal (snd (get_db w)) = Connect :: journal w /\
  journal (snd (commit w)) = Commit :: journal w /\
  journal (snd (close w)) = Close :: journal w /\
  journal (snd (execute_select_notes w)) =
    Execute SELECT_notes_ORDER_BY_created_at_DESC :: journal w /\
  journal (snd (execute_count w)) = Execute SELECT_COUNT :: journal w /\
  journal (snd (execute_count_users w)) =
    Execute SELECT_COUNT_DISTINCT_telegram_user_id :: journal w /\
  journal (snd (execute_select_last w)) =
    Execute SELECT_created_at_ORDER_BY_created_at_DESC_LIMIT_1 :: journal w /\
  (forall k, journal (snd (execute_select_by_id k w)) =
             Execute (SELECT_notes_WHERE_id k) :: journal w) /\
  (forall k, journal (snd (execute_delete k w)) =
             Execute (DELETE_FROM_notes_WHERE_id k) :: journal w) /\
  (forall q c u name, journal (snd (execute_insert q c u name w)) =
                      Execute (INSERT_INTO_notes q c u name) :: journal w).
Proof. repeat split. Qed.

(** ** The properties *)

(** C1.  The three guarded endpoints (list notes, delete note, stats) answer
    a request whose password is absent ([None]) or differs from the secret
    with the 401 authorization failure, and hand back the world exactly as
    it was: the file is unchanged and the journal records no database call.
    This holds for every note id, whether or not a note with that id
    exists, so deleting an existing note with a wrong password is refused
    and never reported as not found. *)
Theorem guarded_endpoints_reject_bad_password
  (password : option string) (note_id : Z) (w : World) :
  password <> Some SECRET_PASSWORD ->
  let denied := HTTPException 401 "Parol talab qilinadi yoki noto'g'ri" in
  get_notes password w = (Raise denied, w) /\
  delete_note note_id password w = (Raise denied, w) /\
  get_stats password w = (Raise denied, w).
Proof.
  intros H denied. repeat split.
  - apply get_notes_denied, H.
  - apply delete_note_denied, H.
  - apply get_stats_denied, H.
Qed.




(** C10.  A successful [delete_note] removes exactly the row with the given
    id: the table afterwards is the table before with that one row taken
    out, every other row being the same record (all six fields) at the same
    relative position, the number of rows drops by exactly one, and the
    AUTOINCREMENT counter is kept. *)
Theorem delete_note_removes_only_that_note (note_id : Z) (w : World) :
  consistent (disk w) ->
  In note_id (map Note.id (notes (disk w))) ->
  exists w' before gone after,
    delete_note note_id (Some SECRET_PASSWORD) w =
      (Return (Deleted.Build "Savol o'chirildi" note_id), w') /\
    notes (disk w) = before ++ gone :: after /\
    Note.id gone = note_id /\
    notes (disk w') = before ++ after /\
    (forall n, In n (notes (disk w')) <->
               In n (notes (disk w)) /\ Note.id n <> note_id) /\
    S (List.length (notes (disk w'))) = List.length (notes (disk w)) /\
    sqlite_sequence (disk w') = sqlite_sequence (disk w).
Proof.
  intros [Hnd _] Hin. rewrite delete_note_present by exact Hin.
  destruct (where_id_not_split _ _ Hnd Hin) as (l1 & g & l2 & Er & Eg & Ew).
  exists (mkWorld (delete_row note_id (disk w)) None
            (Close :: Commit :: Execute (DELETE_FROM_notes_WHERE_id note_id)
               :: Execute (SELECT_notes_WHERE_id note_id)
               :: Connect :: journal w)
            (clock w) (entropy w) (draws w) (outbox w)), l1, g, l2.
  cbn [disk delete_row notes sqlite_sequence].
  split; [reflexivity|]. split; [exact Er|]. split; [exact Eg|].
  split; [exact Ew|]. split; [|split; [|reflexivity]].
  - intro n. apply in_where_id_not.
  - apply where_id_not_length; assumption.
Qed.






End Properties.

(** ** The access guard, for every secret and at the default one *)

(** C2.  [check_password] answers [authorized = True] exactly when the
    submitted password is the configured secret, character for character,
    and raises the 401 failure otherwise; it never answers
    [authorized = False] and never touches the world.  The comparison made
    by the guarded endpoints agrees with it.  With the default secret
    "12345": "12345" is accepted, "12346" and the empty string are refused,
    and letter case matters. *)
Theorem check_password_iff_exact_secret
  (secret candidate : string) (w : World) :
  let answer := check_password secret (PasswordCheck.Build candidate) w in
  let granted := Return (Authorized.Build true "Parol to'g'ri") in
  let refused := Raise (HTTPException 401 "Parol noto'g'ri") in
  (answer = (granted, w) <-> candidate = secret) /\
  (answer = (refused, w) <-> candidate <> secret) /\
  (opt_eqb (Some candidate) secret = true <-> candidate = secret) /\
  getenv_SECRET_PASSWORD None = "12345" /\
  check_password "12345" (PasswordCheck.Build "12345") w = (granted, w) /\
  check_password "12345" (PasswordCheck.Build "12346") w = (refused, w) /\
  check_password "12345" (PasswordCheck.Build "") w = (refused, w) /\
  check_password "parol" (PasswordCheck.Build "Parol") w = (refused, w).
Proof.
  cbv zeta. unfold check_password. cbn [PasswordCheck.password opt_eqb].
  destruct (String.eqb_spec candidate secret) as [E|E].
  - repeat split; try reflexivity; try (intros; assumption);
      try discriminate.
    intro H; contradiction.
  - repeat split; try reflexivity; try (intros; assumption);
      try discriminate.
    + intro H; contradiction.
    + intro H; contradiction.
Qed.

(** ** Concrete runs *)

(** A new file starts consistent, whatever the clock and the random
    source; by [run_consistent] so does every store reached from it. *)
Lemma boot_new_file_consistent (now : Z) (rnd : nat -> nat) :
  consistent (disk (boot None now rnd)).
Proof. split; constructor. Qed.

Lemma new_store_consistent : consistent (disk new_store).
Proof. apply boot_new_file_consistent. Qed.

Lemma two_notes_consistent : consistent (disk two_notes).
Proof. apply run_consistent, new_store_consistent. Qed.

Lemma guarded_endpoints_reject_bad_password_witness :
  In 1 (map Note.id (notes (disk two_notes))) /\
  delete_note "12345" 1 (Some "12346") two_notes =
    (Raise (HTTPException 401 "Parol talab qilinadi yoki noto'g'ri"),
     two_notes) /\
  delete_note "12345" 1 None two_notes =
    (Raise (HTTPException 401 "Parol talab qilinadi yoki noto'g'ri"),
     two_notes) /\
  get_notes "12345" None two_notes =
    (Raise (HTTPException 401 "Parol talab qilinadi yoki noto'g'ri"),
     two_notes) /\
  get_stats "12345" (Some "") two_notes =
    (Raise (HTTPException 401 "Parol talab qilinadi yoki noto'g'ri"),
     two_notes).
Proof.
  split; [vm_compute; left; reflexivity|].
  split; [|split; [|split]].
  - apply (guarded_endpoints_reject_bad_password
             "12345" (Some "12346") 1 two_notes).
    discriminate.
  - apply (guarded_endpoints_reject_bad_password "12345" None 1 two_notes).
    discriminate.
  - apply (guarded_endpoints_reject_bad_password "12345" None 1 two_notes).
    discriminate.
  - apply (guarded_endpoints_reject_bad_password
             "12345" (Some "") 1 two_notes).
    discriminate.
Defined.









Lemma delete_note_removes_only_that_note_witness :
  consistent (disk two_notes) /\
  In 1 (map Note.id (notes (disk two_notes))) /\
  exists w' gone kept,
    delete_note "12345" 1 (Some "12345") two_notes =
      (Return (Deleted.Build "Savol o'chirildi" 1), w') /\
    notes (disk two_notes) = [gone; kept] /\
    notes (disk w') = [kept] /\
    Note.id gone = 1.
Proof.
  assert (H1 : In 1 (map Note.id (notes (disk two_notes)))).
  { vm_compute. left; reflexivity. }
  split; [exact two_notes_consistent|]. split; [exact H1|].
  destruct (delete_note_removes_only_that_note "12345" 1 two_notes
              two_notes_consistent H1)
    as (w' & before & gone & after & E & Er & Eg & Ew & _).
  vm_compute in E. injection E as <-.
  eexists; eexists; eexists.
  split; [vm_compute; reflexivity|].
  split; [vm_compute; reflexivity|].
  split; vm_compute; reflexivity.
Defined.

(** ** Further properties of the store and the handlers *)



Lemma order_by_head (rows : list Note.t) :
  (hd_error (order_by_created_at_desc rows) = None <-> rows = []) /\
  (forall m, hd_error (order_by_created_at_desc rows) = Some m ->
     In m rows /\
     forall n, In n rows -> Note.created_at n <= Note.created_at m).
Proof.
  pose proof (order_by_perm rows) as Hp.
  pose proof (order_by_descending rows) as Hd.
  destruct (order_by_created_at_desc rows) as [|m l]; cbn [hd_error].
  - split.
    + split; [intros _; apply Permutation_nil, Hp | reflexivity].
    + intros m E; discriminate E.
  - split.
    + split; [discriminate|].
      intros ->. apply Permutation_sym, Permutation_nil in Hp.
      discriminate Hp.
    + intros m' E. injection E as <-.
      split; [eapply Permutation_in; [exact Hp | left; reflexivity]|].
      intros n Hn.
      apply (Permutation_in _ (Permutation_sym Hp)) in Hn.
      inversion Hd as [|? ? _ Hall]; subst.
      destruct Hn as [->|Hn]; [lia|].
      rewrite Forall_forall in Hall. apply Hall, Hn.
Qed.

Lemma nodup_length_le (l : list Z) :
  (List.length (nodup Z.eq_dec l) <= List.length l)%nat.
Proof.
  induction l as [|z l IH]; cbn [nodup List.length]; [apply Nat.le_refl|].
  destruct (in_dec Z.eq_dec z l); cbn [List.length]; lia.
Qed.

Lemma non_null_user_ids_length (rows : list Note.t) :
  (List.length (non_null_user_ids rows) <= List.length rows)%nat.
Proof.
  induction rows as [|n rows IH]; cbn [non_null_user_ids List.length];
    [apply Nat.le_refl|].
  destruct (Note.telegram_user_id n); cbn [List.length]; lia.
Qed.



Lemma insert_desc_first (n : Note.t) (l : list Note.t) :
  Forall (fun m => Note.created_at m <= Note.created_at n) l ->
  insert_desc n l = n :: l.
Proof.
  intro H. destruct l as [|m l]; [reflexivity|].
  inversion H as [|? ? Hm _]; subst. cbn [insert_desc].
  destruct (Z.ltb_spec (Note.created_at n) (Note.created_at m)); [lia|].
  reflexivity.
Qed.

Lemma descending_where_id_not (k : Z) (l : list Note.t) :
  descending l -> descending (where_id_not k l).
Proof.
  unfold descending, where_id_not.
  induction 1 as [|m l _ IH Hm]; cbn [filter]; [constructor|].
  destruct (negb (Note.id m =? k)); [|exact IH].
  constructor; [exact IH|].
  rewrite Forall_forall in *. intros n Hn.
  apply filter_In in Hn. apply Hm, Hn.
Qed.

Lemma where_id_not_insert_desc (k : Z) (n : Note.t) (l : list Note.t) :
  descending l ->
  where_id_not k (insert_desc n l) =
  if Note.id n =? k then where_id_not k l
  else insert_desc n (where_id_not k l).
Proof.
  unfold descending, where_id_not.
  induction 1 as [|m l Hl IH Hm].
  - cbn [insert_desc filter]. destruct (Note.id n =? k); reflexivity.
  - cbn [insert_desc].
    destruct (Z.ltb_spec (Note.created_at n) (Note.created_at m)) as [Hlt|Hge].
    + cbn [filter]. rewrite IH.
      destruct (Note.id n =? k); [reflexivity|].
      destruct (negb (Note.id m =? k)); [|reflexivity].
      cbn [insert_desc].
      destruct (Z.ltb_spec (Note.created_at n) (Note.created_at m)); [|lia].
      reflexivity.
    + assert (Hall : Forall (fun a => Note.created_at a <= Note.created_at n)
                       (m :: l)).
      { constructor; [exact Hge|].
        eapply Forall_impl; [|exact Hm]. cbn beta; intros; lia. }
      remember (m :: l) as ml eqn:Eml. cbn [filter].
      destruct (Note.id n =? k); cbn [negb]; [reflexivity|].
      symmetry. apply insert_desc_first.
      rewrite Forall_forall in *. intros a Ha.
      apply filter_In in Ha. apply Hall, Ha.
Qed.

(** Deleting by id and sorting commute. *)
Lemma order_by_where_id_not (k : Z) (rows : list Note.t) :
  order_by_created_at_desc (where_id_not k rows) =
  where_id_not k (order_by_created_at_desc rows).
Proof.
  induction rows as [|n rows IH]; [reflexivity|].
  change (order_by_created_at_desc (n :: rows))
    with (insert_desc n (order_by_created_at_desc rows)).
  rewrite where_id_not_insert_desc by apply order_by_descending.
  unfold where_id_not at 1. cbn [filter].
  fold (where_id_not k rows).
  destruct (Note.id n =? k); cbn [negb]; [exact IH|].
  change (order_by_created_at_desc (n :: where_id_not k rows))
    with (insert_desc n (order_by_created_at_desc (where_id_not k rows))).
  now rewrite IH.
Qed.


Section Further.

Set Default Proof Using "Type".

Variable SECRET_PASSWORD : string.
Variable strftime : Z -> string.

Local Abbreviation check_password := (check_password SECRET_PASSWORD).
Local Abbreviation get_notes := (get_notes SECRET_PASSWORD).
Local Abbreviation delete_note := (delete_note SECRET_PASSWORD).
Local Abbreviation get_stats := (get_stats SECRET_PASSWORD).
Local Abbreviation stats_command := (stats_command strftime).
Local Abbreviation serve := (serve SECRET_PASSWORD strftime).
Local Abbreviation run := (run SECRET_PASSWORD strftime).

(** X1.  [last_note] of the stats endpoint is [None] exactly when the table
    is empty; otherwise it is the [created_at] of a stored note that no
    stored note exceeds.  The stats agree with the listing: [total_notes]
    is the number of records [get_notes] returns and [last_note] is the
    [created_at] of the first of them. *)
Theorem get_stats_last_note_is_newest (w : World) :
  exists s listed w1 w2,
    get_stats (Some SECRET_PASSWORD) w = (Return s, w1) /\
    get_notes (Some SECRET_PASSWORD) w = (Return listed, w2) /\
    (Stats.last_note s = None <-> notes (disk w) = []) /\
    (forall t, Stats.last_note s = Some t ->
       (exists n, In n (notes (disk w)) /\ Note.created_at n = t) /\
       (forall n, In n (notes (disk w)) -> Note.created_at n <= t)) /\
    Stats.total_notes s = Z.of_nat (List.length listed) /\
    Stats.last_note s = option_map Note.created_at (hd_error listed).
Proof.
  rewrite get_stats_eq, get_notes_eq.
  eexists; eexists; eexists; eexists.
  split; [reflexivity|]. split; [reflexivity|].
  cbn [Stats.last_note Stats.total_notes].
  destruct (order_by_head (notes (disk w))) as [Hnone Hsome].
  split; [|split; [|split]].
  - rewrite <- Hnone.
    destruct (hd_error (order_by_created_at_desc (notes (disk w))));
      cbn [option_map]; split; congruence.
  - intros t E.
    destruct (hd_error (order_by_created_at_desc (notes (disk w))))
      as [m|]; cbn [option_map] in E; [|discriminate E].
    injection E as <-. destruct (Hsome m eq_refl) as [Hin Hmax].
    split; [exists m; split; [exact Hin | reflexivity] | exact Hmax].
  - now rewrite (Permutation_length (order_by_perm (notes (disk w)))).
  - reflexivity.
Qed.

(** X2.  [total_users] lies between 0 and [total_notes], and it is 0
    exactly when no stored note has a [telegram_user_id]. *)
Theorem get_stats_users_bounded (w : World) :
  exists s w',
    get_stats (Some SECRET_PASSWORD) w = (Return s, w') /\
    0 <= Stats.total_users s <= Stats.total_notes s /\
    (Stats.total_users s = 0 <->
     forall n, In n (notes (disk w)) -> Note.telegram_user_id n = None).
Proof.
  rewrite get_stats_eq. eexists; eexists; split; [reflexivity|].
  cbn [Stats.total_users Stats.total_notes]. unfold count_distinct_user_ids.
  split.
  - pose proof (nodup_length_le (non_null_user_ids (notes (disk w)))).
    pose proof (non_null_user_ids_length (notes (disk w))).
    lia.
  - split.
    + intros H n Hn.
      destruct (Note.telegram_user_id n) as [u|] eqn:E; [|reflexivity].
      assert (Hu : In u (nodup Z.eq_dec (non_null_user_ids (notes (disk w))))).
      { apply nodup_In, non_null_user_ids_In. exists n; auto. }
      destruct (nodup Z.eq_dec (non_null_user_ids (notes (disk w))));
        [destruct Hu | cbn [List.length] in H; lia].
    + intro H.
      destruct (nodup Z.eq_dec (non_null_user_ids (notes (disk w))))
        as [|u l] eqn:E; [reflexivity|].
      assert (Hu : In u (nodup Z.eq_dec (non_null_user_ids (notes (disk w)))))
        by (rewrite E; left; reflexivity).
      apply nodup_In, non_null_user_ids_In in Hu.
      destruct Hu as (n & Hn & En). rewrite (H n Hn) in En. discriminate En.
Qed.




(** X6.  A successful [delete_note] takes the note out of the listing and
    leaves the other records of the listing in the order they had. *)
Theorem delete_note_removes_from_listing (note_id : Z) (w : World) :
  In note_id (map Note.id (notes (disk w))) ->
  exists gone w1 before after w2 w3,
    get_notes (Some SECRET_PASSWORD) w = (Return before, w2) /\
    delete_note note_id (Some SECRET_PASSWORD) w = (Return gone, w1) /\
    get_notes (Some SECRET_PASSWORD) w1 = (Return after, w3) /\
    after = filter (fun n => negb (Note.id n =? note_id)) before /\
    (forall n, In n after <-> In n before /\ Note.id n <> note_id).
Proof.
  intro Hin. rewrite delete_note_present by exact Hin.
  rewrite get_notes_eq.
  eexists; eexists; eexists; eexists; eexists; eexists.
  split; [reflexivity|]. split; [reflexivity|].
  rewrite get_notes_eq. cbn [disk delete_row notes]. split; [reflexivity|].
  rewrite order_by_where_id_not. split; [reflexivity|].
  intro n. apply in_where_id_not.
Qed.


(** Requests answered without any effect: the password check, and guarded
    requests whose password is absent or wrong. *)
Definition leaves_no_trace (r : Request) : bool :=
  match r with
  | POST_check_password _ => true
  | GET_notes password | GET_stats password | DELETE_notes _ password =>
      negb (opt_eqb password SECRET_PASSWORD)
  | _ => false
  end.

Lemma check_password_world (data : PasswordCheck.t) (w : World) :
  snd (check_password data w) = w.
Proof.
  unfold check_password.
  destruct (String.eqb _ _); reflexivity.
Qed.

Lemma opt_eqb_refuses (password : option string) :
  negb (opt_eqb password SECRET_PASSWORD) = true ->
  password <> Some SECRET_PASSWORD.
Proof.
  intros H E. subst password. cbn [opt_eqb] in H.
  rewrite String.eqb_refl in H. discriminate H.
Qed.






Lemma serve_keeps_or_adds (r : Request) (w : World) (n : Note.t) :
  In n (notes (disk (serve r w))) ->
  In n (notes (disk w)) \/ sqlite_sequence (disk w) < Note.id n.
Proof.
  intro Hn.
  destruct (serve_disk SECRET_PASSWORD strftime r w)
    as [E|[(q & c & u & name & E)|(k & E)]]; rewrite E in Hn.
  - left; exact Hn.
  - cbn [insert_row notes] in Hn. apply in_app_or in Hn.
    destruct Hn as [Hn|[<-|[]]]; [left; exact Hn | right].
    cbn [Note.id]. apply next_rowid_fresh.
  - cbn [delete_row notes] in Hn. apply in_where_id_not in Hn. tauto.
Qed.

(** X8.  No request modifies a stored note: a note found in the store after
    any run of requests, with an id that had already been issued when the
    run began, was in the store when the run began, with the same question,
    instant, color and submitter identity. *)
Theorem stored_notes_are_never_modified
  (rs : list Request) (w : World) (n : Note.t) :
  In n (notes (disk (run rs w))) ->
  Note.id n <= sqlite_sequence (disk w) ->
  In n (notes (disk w)).
Proof.
  revert w. induction rs as [|r rs IH]; intros w Hn Hid; [exact Hn|].
  change (run (r :: rs) w) with (run rs (serve r w)) in Hn.
  pose proof (serve_sequence SECRET_PASSWORD strftime r w) as Hmono.
  assert (Hstep : In n (notes (disk (serve r w)))) by (apply IH; [exact Hn | lia]).
  destruct (serve_keeps_or_adds r w n Hstep) as [H|H]; [exact H | lia].
Qed.


(** X10.  The password check and the guards agree: a password is answered
    [authorized] by [check_password] exactly when [get_notes] and
    [get_stats] answer it with their payload and [delete_note] does not
    answer it with the 401 failure. *)
Theorem check_password_agrees_with_guards
  (candidate : string) (note_id : Z) (w : World) :
  let granted :=
    exists a, fst (check_password (PasswordCheck.Build candidate) w) =
              Return a in
  let denied := HTTPException 401 "Parol talab qilinadi yoki noto'g'ri" in
  (granted <-> candidate = SECRET_PASSWORD) /\
  (granted <-> exists l, fst (get_notes (Some candidate) w) = Return l) /\
  (granted <-> exists s, fst (get_stats (Some candidate) w) = Return s) /\
  (granted <-> fst (delete_note note_id (Some candidate) w) <> Raise denied).
Proof.
  clear strftime.
  cbv zeta. unfold check_password. cbn [PasswordCheck.password].
  destruct (String.eqb_spec candidate SECRET_PASSWORD) as [->|Hne].
  - rewrite get_notes_eq, get_stats_eq. cbn [fst].
    assert (Hg : exists a : Authorized.t,
               Return (Authorized.Build true "Parol to'g'ri") = Return a)
      by (eexists; reflexivity).
    split; [tauto|]. split; [split; eauto|]. split; [split; eauto|].
    split; [intros _|intros _; exact Hg].
    destruct (in_dec Z.eq_dec note_id (map Note.id (notes (disk w))))
      as [I|I];
      [rewrite delete_note_present by exact I
      |rewrite delete_note_missing by exact I];
      cbn [fst]; discriminate.
  - assert (Hp : Some candidate <> Some SECRET_PASSWORD) by congruence.
    rewrite get_notes_denied, get_stats_denied, delete_note_denied
      by exact Hp.
    cbn [fst raise].
    assert (Hg : ~ exists a : Authorized.t,
                 Raise (HTTPException 401 "Parol noto'g'ri") = Return a)
      by (intros [a Ha]; discriminate Ha).
    split; [tauto|].
    split; [split; [tauto | intros [l Hl]; discriminate Hl]|].
    split; [split; [tauto | intros [s Hs]; discriminate Hs]|].
    split; [tauto | intro H; exfalso; apply H; reflexivity].
Qed.




Lemma serve_leaves_no_trace (r : Request) (w : World) :
  leaves_no_trace r = true -> serve r w = w.
Proof.
  destruct r as [data|pw|note|k pw|pw|upd|upd|now];
    cbn [leaves_no_trace serve]; try discriminate; intro H.
  - apply check_password_world.
  - rewrite get_notes_denied by apply opt_eqb_refuses, H. reflexivity.
  - rewrite delete_note_denied by apply opt_eqb_refuses, H. reflexivity.
  - rewrite get_stats_denied by apply opt_eqb_refuses, H. reflexivity.
Qed.

(** X14.  Password checks and guarded requests with an absent or wrong
    password have no effect on anything that follows: dropping them from a
    run of requests leaves the resulting world, with its file, journal,
    random source and bot replies, exactly the same. *)
Theorem refused_requests_are_invisible (rs : list Request) (w : World) :
  run rs w = run (filter (fun r => negb (leaves_no_trace r)) rs) w.
Proof.
  revert w. induction rs as [|r rs IH]; intro w; [reflexivity|].
  change (run (r :: rs) w) with (run rs (serve r w)).
  cbn [filter]. destruct (leaves_no_trace r) eqn:E; cbn [negb].
  - rewrite (serve_leaves_no_trace r w E). apply IH.
  - change (run (r :: ?l) w) with (run l (serve r w)). apply IH.
Qed.

(** X15.  [get_random_color] returns one of the eight labels, consumes one
    random number and touches nothing else; the eight labels are distinct
    and each of them is returned for some random number. *)
Theorem get_random_color_covers_the_labels (w : World) :
  (exists c,
     get_random_color w =
       (Return c,
        mkWorld (disk w) (pending w) (journal w) (clock w) (entropy w)
                (S (draws w)) (outbox w)) /\
     In c colors) /\
  NoDup colors /\ List.length colors = 8%nat /\
  (forall c, In c colors ->
     exists k, (k < 8)%nat /\
       forall w', entropy w' (draws w') = k ->
                  fst (get_random_color w') = Return c).
Proof.
  split; [|split; [|split]].
  - exists (next_color w). split; [reflexivity | apply next_color_in_colors].
  - unfold colors.
    repeat (constructor;
            [cbn [In]; intro H;
             repeat (destruct H as [H|H]; [discriminate H|]); exact H|]).
    constructor.
  - reflexivity.
  - intros c Hc. destruct (In_nth colors c "" Hc) as (k & Hk & E).
    exists k. split; [exact Hk|].
    intros w' Hw. unfold get_random_color, random_choice. cbn [fst].
    rewrite Hw, Nat.mod_small by exact Hk. now rewrite E.
Qed.

End Further.


(** ** Concrete runs for the further properties *)




Lemma two_notes_has_note_1 : In 1 (map Note.id (notes (disk two_notes))).
Proof. vm_compute. left; reflexivity. Qed.

Lemma delete_note_removes_from_listing_witness :
  In 1 (map Note.id (notes (disk two_notes))) /\
  exists gone w1 before after w2 w3,
    get_notes "12345" (Some "12345") two_notes = (Return before, w2) /\
    delete_note "12345" 1 (Some "12345") two_notes = (Return gone, w1) /\
    get_notes "12345" (Some "12345") w1 = (Return after, w3) /\
    after = filter (fun n => negb (Note.id n =? 1)) before /\
    (forall n, In n after <-> In n before /\ Note.id n <> 1).
Proof.
  split; [exact two_notes_has_note_1|].
  exact (delete_note_removes_from_listing "12345" 1 two_notes
           two_notes_has_note_1).
Defined.

Lemma stored_notes_are_never_modified_witness :
  let later :=
    run "12345" str
      [BOT_text bob; DELETE_notes 1 (Some "12345"); TIME 5000;
       POST_notes (NoteCreate.Build "fourth" None None)]
      two_notes in
  exists n,
    In n (notes (disk later)) /\
    Note.id n = 2 /\
    Note.id n <= sqlite_sequence (disk two_notes) /\
    In n (notes (disk two_notes)).
Proof.
  cbv zeta.
  exists (Note.Build 2 "Hello" 1000 "color-pink" (Some 42) (Some "alice")).
  assert (Hin : In (Note.Build 2 "Hello" 1000 "color-pink" (Some 42)
                      (Some "alice"))
                  (notes (disk
                     (run "12345" str
                        [BOT_text bob; DELETE_notes 1 (Some "12345");
                         TIME 5000;
                         POST_notes (NoteCreate.Build "fourth" None None)]
                        two_notes)))).
  { vm_compute. left; reflexivity. }
  assert (Hid : Note.id (Note.Build 2 "Hello" 1000 "color-pink" (Some 42)
                           (Some "alice"))
                <= sqlite_sequence (disk two_notes)).
  { vm_compute. discriminate. }
  split; [exact Hin|]. split; [reflexivity|]. split; [exact Hid|].
  exact (stored_notes_are_never_modified "12345" str _ two_notes _ Hin Hid).
Defined.

